(** * freeapi.py: one GET request, envelope validation, two field reads

    The script [src/freeapi.py] has two functions.  [fetch_data_from_api]
    sends one GET request with the [requests] library, checks the status,
    decodes the body as JSON, validates the envelope and reads
    [login.username] and [location.city] of the first record.  [main] calls
    it once inside a [try] statement with three [except] clauses and prints
    one line.

    The embedding below follows the script statement by statement.  What the
    script takes from its surroundings is modelled next to it:
    - the values the JSON decoder produces, with the three Python operations
      the script applies to them (truthiness, subscription, [in]);
    - the exception classes involved, with their base classes, so that an
      [except] clause is matched by [isinstance] as in Python;
    - the part of [requests] the script calls: [get], [raise_for_status]
      and [json];
    - the observable effects: the requests sent and the lines printed. *)

From stdpp Require Import gmap strings list pretty.
From Stdlib Require Import ZArith Floats.SpecFloat.

#[local] Set Warnings "-register-all".
#[local] Open Scope Z_scope.

(** ** Values of the JSON decoder

    [json.loads] yields [None], [bool], [int], [float], [str], [list] and
    [dict] with [str] keys.  A [str] is a sequence of characters; the model
    takes them from the 8-bit alphabet of [string]. *)

Inductive json : Type :=
| JNull
| JBool (b : bool)
| JInt (n : Z)
| JFloat (x : spec_float)
| JStr (s : string)
| JList (l : list json)
| JDict (d : gmap string json).

Inductive pytype : Type :=
| NoneType | bool_t | int_t | float_t | str_t | list_t | dict_t.

Definition type_of (v : json) : pytype :=
  match v with
  | JNull => NoneType
  | JBool _ => bool_t
  | JInt _ => int_t
  | JFloat _ => float_t
  | JStr _ => str_t
  | JList _ => list_t
  | JDict _ => dict_t
  end.

(** The script subscripts with string literals and with the integer 0. *)
Inductive subscript : Type :=
| Key (k : string)
| Index (i : Z).

Definition subscript_object (k : subscript) : json :=
  match k with
  | Key s => JStr s
  | Index i => JInt i
  end.

(** ** Exception classes

    [bases] lists the direct base classes as the class statements of
    CPython and of [requests.exceptions] give them.  [json_JSONDecodeError]
    is the class of the [json] module, [JSONDecodeError] the one of
    [requests.exceptions] (since release 2.27), which derives from both
    [InvalidJSONError] and the [json] module's class. *)

Inductive pyclass : Type :=
| BaseException | Exception | LookupError | KeyError | IndexError
| TypeError | ValueError | OSError | RuntimeError | RecursionError
| json_JSONDecodeError
| RequestException | InvalidJSONError | JSONDecodeError | HTTPError
| ConnectionError | ProxyError | SSLError | Timeout | ConnectTimeout
| ReadTimeout | TooManyRedirects | ChunkedEncodingError.

#[global] Instance pyclass_eq_dec : EqDecision pyclass.
Proof. solve_decision. Defined.

Definition bases (c : pyclass) : list pyclass :=
  match c with
  | BaseException => []
  | Exception => [BaseException]
  | LookupError | TypeError | ValueError | OSError | RuntimeError =>
      [Exception]
  | RecursionError => [RuntimeError]
  | KeyError | IndexError => [LookupError]
  | json_JSONDecodeError => [ValueError]
  | RequestException => [OSError]
  | InvalidJSONError | HTTPError | ConnectionError | Timeout
  | TooManyRedirects | ChunkedEncodingError => [RequestException]
  | JSONDecodeError => [InvalidJSONError; json_JSONDecodeError]
  | ProxyError | SSLError => [ConnectionError]
  | ConnectTimeout => [ConnectionError; Timeout]
  | ReadTimeout => [Timeout]
  end.

(** [c] is [d] or reaches [d] through at most [depth] base-class steps. *)
Fixpoint issubclass_upto (depth : nat) (c d : pyclass) : bool :=
  bool_decide (c = d) ||
  match depth with
  | O => false
  | S n => existsb (fun b => issubclass_upto n b d) (bases c)
  end.

(** No chain of base classes above is longer than six steps. *)
Definition issubclass : pyclass -> pyclass -> bool := issubclass_upto 6.

(** What an exception carries.  [Arg v] is an exception built with the one
    argument [v] ([raise Exception("...")], [KeyError('login')]).
    [Unsupported op t] is a [TypeError] of the interpreter for an operand of
    type [t]; its wording differs between CPython releases and is left
    open. *)
Inductive operation : Type := Subscription | Membership.

Inductive payload : Type :=
| Arg (v : json)
| Unsupported (op : operation) (t : pytype).

Record exn : Type := Exn { exn_class : pyclass; exn_args : payload }.

Definition isinstance (e : exn) (c : pyclass) : bool :=
  issubclass (exn_class e) c.

(** ** Effects: the requests sent and the lines printed *)

(** An f-string is literal text interleaved with replacement fields. *)
Inductive pyobject : Type :=
| Value (v : json)
| Caught (e : exn).

Inductive piece : Type :=
| Lit (s : string)
| Field (o : pyobject).

Definition fstring : Type := list piece.

Inductive event : Type :=
| GET (url : string)
| PRINT (line : fstring).

Definition trace : Type := list event.

Definition result (A : Type) : Type := (exn + A)%type.

(** A computation extends the trace and returns a value or raises. *)
Definition Py (A : Type) : Type := trace -> result A * trace.

Definition ret {A : Type} (a : A) : Py A := fun t => (inr a, t).

Definition throw {A : Type} (e : exn) : Py A := fun t => (inl e, t).

Definition bind {A B : Type} (m : Py A) (k : A -> Py B) : Py B :=
  fun t =>
    match m t with
    | (inr a, t') => k a t'
    | (inl e, t') => (inl e, t')
    end.

Notation "x <- m ;; k" := (bind m (fun x => k))
  (at level 100, m at next level, right associativity).
Notation "m ;;; k" := (bind m (fun _ => k))
  (at level 100, right associativity).

(** ** Python operations on decoded values *)

(** [bool(v)]: [None], [False], zero, and empty strings and containers are
    false; every other value, NaN included, is true. *)
Definition py_truthy (v : json) : bool :=
  match v with
  | JNull => false
  | JBool b => b
  | JInt n => negb (n =? 0)
  | JFloat (S754_zero _) => false
  | JFloat _ => true
  | JStr s => negb (String.eqb s EmptyString)
  | JList l => negb (bool_decide (length l = 0%nat))
  | JDict d => negb (bool_decide (size d = 0%nat))
  end.

(** [seq[i]] on a sequence of [len] items: a negative index counts from the
    end; [None] stands for an index out of range. *)
Definition py_position (len : nat) (i : Z) : option nat :=
  let j := if i <? 0 then i + Z.of_nat len else i in
  if bool_decide (0 <= j < Z.of_nat len) then Some (Z.to_nat j) else None.

(** [o[k]].  A [dict] from the decoder has only [str] keys, so an integer
    subscript is a missing key; a [list] and a [str] take integers only;
    the other types are not subscriptable. *)
Definition py_getitem (o : json) (k : subscript) : Py json :=
  match o, k with
  | JDict d, Key s =>
      match d !! s with
      | Some v => ret v
      | None => throw (Exn KeyError (Arg (subscript_object k)))
      end
  | JDict d, Index _ => throw (Exn KeyError (Arg (subscript_object k)))
  | JList l, Index i =>
      match py_position (length l) i ≫= (l !!.) with
      | Some v => ret v
      | None => throw (Exn IndexError (Arg (JStr "list index out of range")))
      end
  | JStr s, Index i =>
      match py_position (String.length s) i ≫= (fun n => String.get n s) with
      | Some c => ret (JStr (String c EmptyString))
      | None => throw (Exn IndexError (Arg (JStr "string index out of range")))
      end
  | _, _ => throw (Exn TypeError (Unsupported Subscription (type_of o)))
  end.

Definition is_str (s : string) (v : json) : bool :=
  match v with
  | JStr s' => String.eqb s s'
  | _ => false
  end.

(** ["s" in o]: a key of a [dict], an element of a [list], a substring of a
    [str]; the other types are not iterable. *)
Definition py_contains (s : string) (o : json) : Py bool :=
  match o with
  | JDict d => ret (bool_decide (is_Some (d !! s)))
  | JList l => ret (existsb (is_str s) l)
  | JStr s' =>
      match String.index 0 s s' with
      | Some _ => ret true
      | None => ret false
      end
  | _ => throw (Exn TypeError (Unsupported Membership (type_of o)))
  end.

(** [a and b] where only the truth value is used: [b] is not evaluated
    when [a] is false. *)
Definition py_and (a b : Py bool) : Py bool :=
  x <- a ;; if x then b else ret false.

(** ** The part of [requests] the script calls *)

(** What [json()] raises when the decoder reports a syntax error changed
    with release 2.27: before, the decoder's own [json.JSONDecodeError] (a
    [ValueError]) propagates; since, [json()] catches it and raises
    [requests.exceptions.JSONDecodeError] (a [RequestException]). *)
Inductive release : Type :=
| before_2_27
| since_2_27.

Definition decode_error_class (rel : release) : pyclass :=
  match rel with
  | since_2_27 => JSONDecodeError
  | before_2_27 => json_JSONDecodeError
  end.

(** The decoder can also give up for another reason than syntax: an integer
    literal with more digits than [int] converts raises a [ValueError], a
    nesting deeper than the recursion limit a [RecursionError].  No release
    of [requests] catches these: [json()] lets them through as they are. *)
Inductive decoder_failure : Type :=
| integer_too_long
| nesting_too_deep.

Definition decoder_failure_class (f : decoder_failure) : pyclass :=
  match f with
  | integer_too_long => ValueError
  | nesting_too_deep => RecursionError
  end.

(** The body of a response, by what [json()] does with it: the decoder
    reports a syntax error with a diagnostic, returns a value, or gives up
    with a message. *)
Inductive body : Type :=
| Malformed (diagnostic : string)
| Parsed (v : json)
| Undecodable (f : decoder_failure) (msg : string).

Record Response : Type := {
  status_code : Z;
  reason : string;
  url : string;
  content : body
}.

(** Why [requests.get] may raise instead of returning a response, and the
    class of the exception it raises then; [msg] below is the text of the
    failure, what [str(e)] gives. *)
Inductive transport_failure : Type :=
| connection_refused
| name_resolution_failed
| proxy_failed
| tls_failed
| connect_timed_out
| read_timed_out
| redirect_limit_exceeded
| body_truncated.

Definition raised_class (f : transport_failure) : pyclass :=
  match f with
  | connection_refused | name_resolution_failed => ConnectionError
  | proxy_failed => ProxyError
  | tls_failed => SSLError
  | connect_timed_out => ConnectTimeout
  | read_timed_out => ReadTimeout
  | redirect_limit_exceeded => TooManyRedirects
  | body_truncated => ChunkedEncodingError
  end.

Inductive outcome : Type :=
| Failed (f : transport_failure) (msg : string)
| Answered (r : Response).

(** The surroundings of one run: the installed [requests] and what the
    network does with a GET request to a URL. *)
Record environment : Type := {
  requests_release : release;
  server : string -> outcome
}.

(** [print(line)].  The standard output is taken to accept the text: a
    line it cannot encode, or a closed output, is outside the model. *)
Definition print (line : fstring) : Py unit :=
  fun t => (inr tt, t ++ [PRINT line]).

(** [Response.raise_for_status()] *)
Definition raise_for_status (r : Response) : Py unit :=
  let http_error_msg :=
    if bool_decide (400 <= status_code r < 500) then
      pretty (status_code r) +:+ " Client Error: " +:+ reason r
        +:+ " for url: " +:+ url r
    else if bool_decide (500 <= status_code r < 600) then
      pretty (status_code r) +:+ " Server Error: " +:+ reason r
        +:+ " for url: " +:+ url r
    else EmptyString in
  if String.eqb http_error_msg EmptyString then ret tt
  else throw (Exn HTTPError (Arg (JStr http_error_msg))).

(** [try: body  except c1 as e: h1  except c2 as e: h2 ...]: the first
    clause whose class the exception is an instance of handles it; with
    no such clause the exception propagates. *)
Definition try_except {A : Type} (body : Py A)
    (clauses : list (pyclass * (exn -> Py A))) : Py A :=
  fun t =>
    match body t with
    | (inr a, t') => (inr a, t')
    | (inl e, t') =>
        match List.find (fun cl => isinstance e (fst cl)) clauses with
        | Some cl => snd cl e t'
        | None => (inl e, t')
        end
    end.

(** The rest depends on the surroundings of the run. *)
Section Script.

Variable env : environment.

(** [requests.get(url)] *)
Definition requests_get (u : string) : Py Response :=
  fun t =>
    match server env u with
    | Failed f msg =>
        (inl (Exn (raised_class f) (Arg (JStr msg))), t ++ [GET u])
    | Answered r => (inr r, t ++ [GET u])
    end.

(** [Response.json()] *)
Definition Response_json (r : Response) : Py json :=
  match content r with
  | Parsed v => ret v
  | Malformed diagnostic =>
      throw (Exn (decode_error_class (requests_release env))
               (Arg (JStr diagnostic)))
  | Undecodable f msg =>
      throw (Exn (decoder_failure_class f) (Arg (JStr msg)))
  end.

(** ** The script *)

Definition fetch_data_from_api : Py (json * json) :=
  let url := "https://api.freeapi.app/api/v1/public/randomusers" in
  response <- requests_get url ;;
  raise_for_status response ;;;
  data <- Response_json response ;;
  valid <- py_and (success <- py_getitem data (Key "success") ;;
                   ret (py_truthy success))
             (py_and (py_contains "data" data)
                     (inner <- py_getitem data (Key "data") ;;
                      py_contains "data" inner)) ;;
  if valid : bool then
    user_data <- (outer <- py_getitem data (Key "data") ;;
                  records <- py_getitem outer (Key "data") ;;
                  py_getitem records (Index 0)) ;;
    username <- (login <- py_getitem user_data (Key "login") ;;
                 py_getitem login (Key "username")) ;;
    location <- (place <- py_getitem user_data (Key "location") ;;
                 py_getitem place (Key "city")) ;;
    ret (username, location)
  else
    throw (Exn Exception
             (Arg (JStr "API request failed or returned invalid data"))).

Definition main : Py unit :=
  try_except
    (pair <- fetch_data_from_api ;;
     let '(username, city) := pair in
     print [Lit "Username: "; Field (Value username);
            Lit ", City: "; Field (Value city)])
    [ (RequestException,
       fun e => print [Lit "Network error occurred: "; Field (Caught e)]);
      (KeyError,
       fun e => print [Lit "Error parsing API response: "; Field (Caught e)]);
      (Exception,
       fun e =>
         print [Lit "An unexpected error occurred: "; Field (Caught e)]) ].

(** [if __name__ == "__main__": main()]: the process ends with status 0
    when [main] returns and with status 1 when an exception leaves it. *)
Definition run : Z * trace :=
  match main [] with
  | (inr _, t) => (0, t)
  | (inl _, t) => (1, t)
  end.

End Script.

(** ** The text of a printed line *)

(** Characters that [repr] of a [str] shows as they are, between single
    quotes: printable ASCII other than the quote and the backslash. *)
Definition plain_char (c : Ascii.ascii) : bool :=
  let n := Ascii.N_of_ascii c in
  (32 <=? n)%N && (n <=? 126)%N && negb (n =? 39)%N && negb (n =? 92)%N.

Fixpoint plain (s : string) : bool :=
  match s with
  | EmptyString => true
  | String c s' => plain_char c && plain s'
  end.

(** [str(v)].  The text of a [float] and of a container is not modelled. *)
Definition py_str (v : json) : option string :=
  match v with
  | JNull => Some "None"
  | JBool true => Some "True"
  | JBool false => Some "False"
  | JInt n => Some (pretty n)
  | JStr s => Some s
  | JFloat _ | JList _ | JDict _ => None
  end.

(** [repr(v)]; for a [str], only where no character needs escaping. *)
Definition py_repr (v : json) : option string :=
  match v with
  | JStr s => if plain s then Some ("'" +:+ s +:+ "'") else None
  | _ => py_str v
  end.

(** [str(e)]: the one argument, which a [KeyError] shows with [repr]. *)
Definition py_str_exn (e : exn) : option string :=
  match exn_args e with
  | Arg v => if isinstance e KeyError then py_repr v else py_str v
  | Unsupported _ _ => None
  end.

Definition py_format (o : pyobject) : option string :=
  match o with
  | Value v => py_str v
  | Caught e => py_str_exn e
  end.

Fixpoint render (line : fstring) : option string :=
  match line with
  | [] => Some EmptyString
  | Lit s :: rest => (fun r => s +:+ r) <$> render rest
  | Field o :: rest =>
      match py_format o, render rest with
      | Some s, Some r => Some (s +:+ r)
      | _, _ => None
      end
  end.

(** The line opens with the literal text [p], whatever its fields hold. *)
Definition begins_with (p : string) (line : fstring) : bool :=
  match line with
  | Lit s :: _ => String.prefix p s
  | _ => false
  end.

(** ** Vocabulary of the statements *)

Definition api_url : string :=
  "https://api.freeapi.app/api/v1/public/randomusers".

(** [v] is an object with a member [k]. *)
Definition member (k : string) (v : json) : option json :=
  match v with
  | JDict d => d !! k
  | _ => None
  end.

(** The value reached from [v] through the nested members [ks]. *)
Fixpoint at_path (ks : list string) (v : json) : option json :=
  match ks with
  | [] => Some v
  | k :: ks' => member k v ≫= at_path ks'
  end.

(** The first item of a list. *)
Definition first_record (v : json) : option json :=
  match v with
  | JList (x :: _) => Some x
  | _ => None
  end.

(** What the spec says the script reads from a decoded body: it is compared
    with what the script does in [fetch_parsed_cases]. *)
Definition extracted (data : json) : option (json * json) :=
  success ← member "success" data;
  if py_truthy success then
    records ← at_path ["data"; "data"] data;
    record ← first_record records;
    username ← at_path ["login"; "username"] record;
    city ← at_path ["location"; "city"] record;
    Some (username, city)
  else None.

(** [json()] raises on the body of [r]. *)
Definition json_raises (r : Response) : bool :=
  match content r with
  | Parsed _ => false
  | Malformed _ | Undecodable _ _ => true
  end.

(** Text of ASCII characters only, which every standard output encodes. *)
Fixpoint ascii_only (s : string) : bool :=
  match s with
  | EmptyString => true
  | String c s' => (Ascii.N_of_ascii c <? 128)%N && ascii_only s'
  end.

(** The script reaches line 57 and binds [data] there: the request was
    answered, the status passed [raise_for_status], the body is JSON. *)
Definition parsed_response (env : environment) (data : json) : Prop :=
  exists r : Response,
    server env api_url = Answered r /\
    ~ (400 <= status_code r < 600) /\
    content r = Parsed data.

(** The exception of the [else] branch at line 67. *)
Definition invalid_data : exn :=
  Exn Exception (Arg (JStr "API request failed or returned invalid data")).

(** The body of the end-to-end example. *)
Definition canned_record : json :=
  JDict {[ "login" := JDict {[ "username" := JStr "jdoe" ]};
           "location" := JDict {[ "city" := JStr "Paris" ]} ]}.

Definition canned : json :=
  JDict {[ "success" := JBool true;
           "data" := JDict {[ "data" := JList [canned_record] ]} ]}.

Definition answering (rel : release) (status : Z) (b : body) : environment :=
  {| requests_release := rel;
     server := fun _ =>
       Answered {| status_code := status; reason := EmptyString; url := api_url;
                   content := b |} |}.

(** The line of the [try] body and the line of the matching [except]
    clause of [main]. *)
Definition success_line (username city : json) : fstring :=
  [Lit "Username: "; Field (Value username);
   Lit ", City: "; Field (Value city)].

Definition report (e : exn) : fstring :=
  if isinstance e RequestException then
    [Lit "Network error occurred: "; Field (Caught e)]
  else if isinstance e KeyError then
    [Lit "Error parsing API response: "; Field (Caught e)]
  else
    [Lit "An unexpected error occurred: "; Field (Caught e)].

(** Bodies of the counterexamples. *)
Definition null_data : json :=
  JDict {[ "success" := JBool true; "data" := JNull ]}.

Definition no_records : json :=
  JDict {[ "success" := JBool true;
           "data" := JDict {[ "data" := JList [] ]} ]}.

Definition in_paris : json := JDict {[ "city" := JStr "Paris" ]}.

Definition null_login : json :=
  JDict {[ "success" := JBool true;
           "data" := JDict {[ "data" :=
             JList [ JDict {[ "login" := JNull;
                              "location" := in_paris ]} ] ]} ]}.

Definition no_login : json :=
  JDict {[ "success" := JBool true;
           "data" := JDict {[ "data" :=
             JList [ JDict {[ "location" := in_paris ]} ] ]} ]}.

(** A server that refuses the connection. *)
Definition refusing : environment :=
  {| requests_release := since_2_27;
     server := fun _ => Failed connection_refused "Connection refused" |}.

Definition unsuccessful : json :=
  JDict {[ "success" := JBool false;
           "data" := JDict {[ "data" := JList [] ]} ]}.

Definition no_success : json :=
  JDict {[ "data" := JDict {[ "data" := JList [] ]} ]}.

(** ** Lines 60 to 67 on their own *)

(** The validation and the extraction of [fetch_data_from_api] as a
    computation on [data]; [fetch_after_decoding] shows that the script is
    the request, the status check and the decoding followed by it. *)
Definition validate_and_extract (data : json) : Py (json * json) :=
  valid <- py_and (success <- py_getitem data (Key "success") ;;
                   ret (py_truthy success))
             (py_and (py_contains "data" data)
                     (inner <- py_getitem data (Key "data") ;;
                      py_contains "data" inner)) ;;
  if valid : bool then
    user_data <- (outer <- py_getitem data (Key "data") ;;
                  records <- py_getitem outer (Key "data") ;;
                  py_getitem records (Index 0)) ;;
    username <- (login <- py_getitem user_data (Key "login") ;;
                 py_getitem login (Key "username")) ;;
    location <- (place <- py_getitem user_data (Key "location") ;;
                 py_getitem place (Key "city")) ;;
    ret (username, location)
  else
    throw (Exn Exception
             (Arg (JStr "API request failed or returned invalid data"))).

(** A computation that sends nothing and prints nothing. *)
Definition effect_free {A : Type} (m : Py A) : Prop :=
  exists x, forall t, m t = (x, t).

(** The types on which ["data" in v] raises. *)
Definition scalar (v : json) : bool :=
  match v with
  | JNull | JBool _ | JInt _ | JFloat _ => true
  | JStr _ | JList _ | JDict _ => false
  end.

(** Bodies of further examples. *)
Definition enveloped (records : json) : json :=
  JDict {[ "success" := JBool true;
           "data" := JDict {[ "data" := records ]} ]}.

Definition canned_fields : gmap string json :=
  {[ "login" := JDict {[ "username" := JStr "jdoe" ]};
     "location" := JDict {[ "city" := JStr "Paris" ]} ]}.

Definition canned_envelope : gmap string json :=
  {[ "success" := JBool true;
     "data" := JDict {[ "data" := JList [canned_record] ]} ]}.

Definition anonymous_record : gmap string json :=
  {[ "login" := JDict {[ "username" := JNull ]};
     "location" := JDict {[ "city" := JInt 75001 ]} ]}.

Definition homeless_record : gmap string json :=
  {[ "login" := JDict {[ "username" := JStr "jdoe" ]} ]}.

(** ** The class hierarchy at work *)

Example key_error_is_lookup_error : issubclass KeyError LookupError = true.
Proof. reflexivity. Qed.

Example index_error_is_no_key_error : issubclass IndexError KeyError = false.
Proof. reflexivity. Qed.

Example decode_error_since_2_27 :
  issubclass JSONDecodeError RequestException = true
  /\ issubclass JSONDecodeError ValueError = true.
Proof. split; reflexivity. Qed.

Example decode_error_before_2_27 :
  issubclass json_JSONDecodeError RequestException = false
  /\ issubclass json_JSONDecodeError ValueError = true.
Proof. split; reflexivity. Qed.

Example decoder_failures_pass_the_first_two_clauses :
  forall f,
    issubclass (decoder_failure_class f) RequestException = false
    /\ issubclass (decoder_failure_class f) KeyError = false
    /\ issubclass (decoder_failure_class f) Exception = true.
Proof. intros []; repeat split; reflexivity. Qed.

Lemma every_class_is_base_exception c : issubclass c BaseException = true.
Proof. destruct c; reflexivity. Qed.

(** ** The end-to-end example, run *)

Example run_canned :
  run (answering since_2_27 200 (Parsed canned)) =
  (0, [GET api_url;
       PRINT [Lit "Username: "; Field (Value (JStr "jdoe"));
              Lit ", City: "; Field (Value (JStr "Paris"))]]).
Proof. vm_compute. reflexivity. Qed.

(** A response with status 404 is turned into an [HTTPError] by
    [raise_for_status] and reported by the first [except] clause. *)
Example run_not_found :
  let env :=
    {| requests_release := since_2_27;
       server := fun u =>
         Answered {| status_code := 404; reason := "Not Found"; url := u;
                     content := Parsed canned |} |} in
  exists line,
    run env = (0, [GET api_url; PRINT line]) /\
    render line =
      Some ("Network error occurred: 404 Client Error: Not Found for url: "
            +:+ api_url).
Proof. eexists. split; vm_compute; reflexivity. Qed.

(** ** Laws of the computations *)

Lemma bind_ret {A B : Type} (a : A) (k : A -> Py B) : bind (ret a) k = k a.
Proof. reflexivity. Qed.

Lemma bind_throw {A B : Type} (e : exn) (k : A -> Py B) :
  bind (throw e) k = throw e.
Proof. reflexivity. Qed.

Lemma bind_returned {A B : Type} (m : Py A) (k : A -> Py B) t a t' :
  m t = (inr a, t') -> bind m k t = k a t'.
Proof. intros H. unfold bind. now rewrite H. Qed.

Lemma bind_raised {A B : Type} (m : Py A) (k : A -> Py B) t e t' :
  m t = (inl e, t') -> bind m k t = (inl e, t').
Proof. intros H. unfold bind. now rewrite H. Qed.

Lemma py_and_true (b : Py bool) : py_and (ret true) b = b.
Proof. reflexivity. Qed.

Lemma py_and_false (b : Py bool) : py_and (ret false) b = ret false.
Proof. reflexivity. Qed.

Lemma py_and_throw (e : exn) (b : Py bool) : py_and (throw e) b = throw e.
Proof. reflexivity. Qed.

(** ** Subscription and membership on objects *)

Lemma getitem_found (d : gmap string json) k v :
  d !! k = Some v -> py_getitem (JDict d) (Key k) = ret v.
Proof. intros H. unfold py_getitem. now rewrite H. Qed.

Lemma getitem_missing (d : gmap string json) k :
  d !! k = None ->
  py_getitem (JDict d) (Key k) = throw (Exn KeyError (Arg (JStr k))).
Proof. intros H. unfold py_getitem. now rewrite H. Qed.

Lemma getitem_member k o v :
  member k o = Some v -> py_getitem o (Key k) = ret v.
Proof. destruct o; try discriminate. apply getitem_found. Qed.

Lemma contains_found (d : gmap string json) k v :
  d !! k = Some v -> py_contains k (JDict d) = ret true.
Proof.
  intros H. unfold py_contains. rewrite bool_decide_eq_true_2; [done | eauto].
Qed.

Lemma contains_missing (d : gmap string json) k :
  d !! k = None -> py_contains k (JDict d) = ret false.
Proof.
  intros H. unfold py_contains. rewrite bool_decide_eq_false_2; [done |].
  rewrite H. intros [? ?]; discriminate.
Qed.

Lemma contains_member k o v :
  member k o = Some v -> py_contains k o = ret true.
Proof. destruct o; try discriminate. apply contains_found. Qed.

Lemma getitem_first (x : json) (l : list json) :
  py_getitem (JList (x :: l)) (Index 0) = ret x.
Proof.
  unfold py_getitem, py_position. cbn [Z.ltb Z.compare length].
  rewrite bool_decide_eq_true_2 by (cbn [length]; lia). reflexivity.
Qed.

Lemma getitem_empty_list :
  py_getitem (JList []) (Index 0) =
  throw (Exn IndexError (Arg (JStr "list index out of range"))).
Proof. reflexivity. Qed.

(** ** The status check *)

Lemma append_nonempty (a b : string) :
  b <> EmptyString -> a +:+ b <> EmptyString.
Proof. intros H. destruct a; cbn; [exact H | discriminate]. Qed.

Lemma raise_for_status_passes r :
  ~ (400 <= status_code r < 600) -> raise_for_status r = ret tt.
Proof.
  intros H. unfold raise_for_status.
  rewrite !bool_decide_eq_false_2 by lia. reflexivity.
Qed.

Lemma raise_for_status_raises r :
  400 <= status_code r < 600 ->
  exists msg, raise_for_status r = throw (Exn HTTPError (Arg (JStr msg))).
Proof.
  intros H. unfold raise_for_status.
  destruct (bool_decide (400 <= status_code r < 500)) eqn:E4.
  - eexists. rewrite (proj2 (String.eqb_neq _ EmptyString)); [reflexivity |].
    apply append_nonempty. discriminate.
  - apply bool_decide_eq_false_1 in E4.
    rewrite bool_decide_eq_true_2 by lia.
    eexists. rewrite (proj2 (String.eqb_neq _ EmptyString)); [reflexivity |].
    apply append_nonempty. discriminate.
Qed.

(** ** Every subscription and membership test returns or raises *)

Lemma getitem_key_cases o k :
  match member k o with
  | Some v => py_getitem o (Key k) = ret v
  | None =>
      exists e, py_getitem o (Key k) = throw e /\ isinstance e Exception = true
  end.
Proof.
  destruct o; cbn [member]; try (eexists; split; reflexivity).
  destruct (d !! k) eqn:E.
  - now apply getitem_found.
  - eexists; split; [now apply getitem_missing | reflexivity].
Qed.

Lemma getitem_first_cases o :
  match first_record o with
  | Some x => py_getitem o (Index 0) = ret x
  | None =>
      (exists e, py_getitem o (Index 0) = throw e
                 /\ isinstance e Exception = true)
      \/ (exists s, py_getitem o (Index 0) = ret (JStr s))
  end.
Proof.
  destruct o as [| | | |s|l|d]; cbn [first_record];
    try (left; eexists; split; reflexivity).
  - destruct s as [|c s].
    + left; eexists; split; reflexivity.
    + right. exists (String c EmptyString).
      unfold py_getitem, py_position. cbn [Z.ltb Z.compare String.length].
      rewrite bool_decide_eq_true_2 by (cbn [String.length]; lia). reflexivity.
  - destruct l as [|x l].
    + left; eexists; split; reflexivity.
    + apply getitem_first.
Qed.

(** ** Entering the script *)

Lemma get_answered env u r {B : Type} (k : Response -> Py B) t :
  server env u = Answered r ->
  bind (requests_get env u) k t = k r (t ++ [GET u]).
Proof. intros H. unfold bind, requests_get. now rewrite H. Qed.

Lemma get_failed env u f msg {B : Type} (k : Response -> Py B) t :
  server env u = Failed f msg ->
  bind (requests_get env u) k t =
  (inl (Exn (raised_class f) (Arg (JStr msg))), t ++ [GET u]).
Proof. intros H. unfold bind, requests_get. now rewrite H. Qed.

Lemma json_parsed env r v :
  content r = Parsed v -> Response_json env r = ret v.
Proof. intros H. unfold Response_json. now rewrite H. Qed.

Ltac py_step :=
  first
    [ rewrite bind_ret
    | rewrite bind_throw
    | rewrite py_and_true
    | rewrite py_and_false
    | rewrite py_and_throw
    | erewrite getitem_member by eassumption
    | erewrite contains_member by eassumption
    | erewrite getitem_found by eassumption
    | erewrite getitem_missing by eassumption
    | erewrite contains_found by eassumption
    | erewrite contains_missing by eassumption
    | rewrite getitem_first ];
  cbv beta.

Ltac enter_script H :=
  let r := fresh "r" in
  let Hs := fresh "Hserver" in
  let Hst := fresh "Hstatus" in
  let Hc := fresh "Hcontent" in
  destruct H as (r & Hs & Hst & Hc);
  unfold fetch_data_from_api; cbv zeta; fold api_url;
  rewrite (get_answered _ _ _ _ _ Hs);
  rewrite (raise_for_status_passes _ Hst), bind_ret;
  rewrite (json_parsed _ _ _ Hc), bind_ret.

Ltac raised := eexists; split; reflexivity.

Lemma at_path_two k1 k2 o :
  at_path [k1; k2] o = member k1 o ≫= member k2.
Proof.
  cbn [at_path]. destruct (member k1 o) as [x|]; cbn [mbind option_bind];
    [| reflexivity].
  now destruct (member k2 x).
Qed.

Lemma nested_getitem_cases o k1 k2 :
  match at_path [k1; k2] o with
  | Some v => (x <- py_getitem o (Key k1) ;; py_getitem x (Key k2)) = ret v
  | None =>
      exists e, (x <- py_getitem o (Key k1) ;; py_getitem x (Key k2)) = throw e
                /\ isinstance e Exception = true
  end.
Proof.
  rewrite at_path_two. pose proof (getitem_key_cases o k1) as H1.
  destruct (member k1 o) as [x|]; cbn [mbind option_bind].
  - rewrite H1, bind_ret. pose proof (getitem_key_cases x k2) as H2.
    now destruct (member k2 x).
  - destruct H1 as (e & -> & He). rewrite bind_throw. now exists e.
Qed.

Lemma fetch_parsed_cases env data t :
  parsed_response env data ->
  match extracted data with
  | Some p => fetch_data_from_api env t = (inr p, t ++ [GET api_url])
  | None =>
      exists e, fetch_data_from_api env t = (inl e, t ++ [GET api_url])
                /\ isinstance e Exception = true
  end.
Proof.
  intros H. enter_script H. unfold extracted.
  pose proof (getitem_key_cases data "success") as Hs.
  destruct (member "success" data) as [success|] eqn:Hsucc;
    cbn [mbind option_bind].
  2: { destruct Hs as (e & -> & He). repeat py_step. now exists e. }
  rewrite Hs, bind_ret.
  destruct (py_truthy success) eqn:Htruthy; [| repeat py_step; raised].
  rewrite py_and_true.
  destruct data as [| | | | | |d]; try discriminate.
  cbn [member] in Hsucc. rewrite at_path_two. cbn [member].
  destruct (d !! "data") as [inner|] eqn:Hdata; cbn [mbind option_bind];
    [| repeat py_step; raised].
  rewrite (contains_found _ _ _ Hdata), py_and_true.
  rewrite !(getitem_found _ _ _ Hdata), !bind_ret.
  destruct inner as [| | | |s|l|d2]; cbn [member mbind option_bind];
    try (repeat py_step; raised).
  - unfold py_contains. destruct (String.index 0 "data" s);
      repeat py_step; raised.
  - unfold py_contains. destruct (existsb (is_str "data") l);
      repeat py_step; raised.
  - destruct (d2 !! "data") as [records|] eqn:Hrecords;
      cbn [mbind option_bind]; [| repeat py_step; raised].
    repeat py_step.
    pose proof (getitem_first_cases records) as Hfirst.
    destruct (first_record records) as [record|]; cbn [mbind option_bind].
    + rewrite Hfirst, bind_ret.
      pose proof (nested_getitem_cases record "login" "username") as Hu.
      destruct (at_path ["login"; "username"] record) as [username|];
        cbn [mbind option_bind].
      2: { destruct Hu as (e & -> & He). repeat py_step. now exists e. }
      rewrite Hu, bind_ret.
      pose proof (nested_getitem_cases record "location" "city") as Hc.
      destruct (at_path ["location"; "city"] record) as [city|];
        cbn [mbind option_bind].
      2: { destruct Hc as (e & -> & He). repeat py_step. now exists e. }
      rewrite Hc, bind_ret. reflexivity.
    + destruct Hfirst as [(e & -> & He) | (c & ->)]; repeat py_step;
        [now exists e |].
      raised.
Qed.

(** ** Outcomes of [fetch_data_from_api] before the body is decoded *)

Lemma raised_class_request f :
  issubclass (raised_class f) RequestException = true.
Proof. destruct f; reflexivity. Qed.

Lemma fetch_transport_failure env f msg t :
  server env api_url = Failed f msg ->
  fetch_data_from_api env t =
  (inl (Exn (raised_class f) (Arg (JStr msg))), t ++ [GET api_url]).
Proof.
  intros H. unfold fetch_data_from_api; cbv zeta; fold api_url.
  now rewrite (get_failed _ _ _ _ _ _ H).
Qed.

Lemma fetch_http_error env r :
  server env api_url = Answered r ->
  400 <= status_code r < 600 ->
  exists msg, forall t,
    fetch_data_from_api env t =
    (inl (Exn HTTPError (Arg (JStr msg))), t ++ [GET api_url]).
Proof.
  intros Hs Hst. destruct (raise_for_status_raises r Hst) as (msg & Hr).
  exists msg. intros t. unfold fetch_data_from_api; cbv zeta; fold api_url.
  rewrite (get_answered _ _ _ _ _ Hs), Hr, bind_throw. reflexivity.
Qed.

Lemma fetch_malformed env r diagnostic t :
  server env api_url = Answered r ->
  ~ (400 <= status_code r < 600) ->
  content r = Malformed diagnostic ->
  fetch_data_from_api env t =
  (inl (Exn (decode_error_class (requests_release env))
          (Arg (JStr diagnostic))),
   t ++ [GET api_url]).
Proof.
  intros Hs Hst Hc. unfold fetch_data_from_api; cbv zeta; fold api_url.
  rewrite (get_answered _ _ _ _ _ Hs).
  rewrite (raise_for_status_passes _ Hst), bind_ret.
  unfold Response_json. now rewrite Hc.
Qed.

Lemma fetch_undecodable env r f msg t :
  server env api_url = Answered r ->
  ~ (400 <= status_code r < 600) ->
  content r = Undecodable f msg ->
  fetch_data_from_api env t =
  (inl (Exn (decoder_failure_class f) (Arg (JStr msg))), t ++ [GET api_url]).
Proof.
  intros Hs Hst Hc. unfold fetch_data_from_api; cbv zeta; fold api_url.
  rewrite (get_answered _ _ _ _ _ Hs).
  rewrite (raise_for_status_passes _ Hst), bind_ret.
  unfold Response_json. now rewrite Hc.
Qed.

(** The script sends its one request and then returns or raises an
    instance of [Exception]. *)
Lemma fetch_total env t :
  exists x, fetch_data_from_api env t = (x, t ++ [GET api_url]) /\
            forall e, x = inl e -> isinstance e Exception = true.
Proof.
  destruct (server env api_url) as [f msg|r] eqn:Hs.
  - eexists; split; [exact (fetch_transport_failure _ _ _ _ Hs) |].
    intros e [= <-]. unfold isinstance; cbn [exn_class]. now destruct f.
  - destruct (decide (400 <= status_code r < 600)) as [Hst|Hst].
    + destruct (fetch_http_error env r Hs Hst) as (msg & H).
      eexists; split; [apply H |]. now intros e [= <-].
    + destruct (content r) as [diagnostic|data|f msg] eqn:Hc.
      * eexists; split; [exact (fetch_malformed _ _ _ _ Hs Hst Hc) |].
        intros e [= <-]. unfold isinstance; cbn [exn_class].
        now destruct (requests_release env).
      * assert (parsed_response env data) as Hp by (now exists r).
        pose proof (fetch_parsed_cases env data t Hp) as H.
        destruct (extracted data) as [p|].
        -- eexists; split; [exact H |]. discriminate.
        -- destruct H as (e & H & He). eexists; split; [exact H |].
           now intros e' [= <-].
      * eexists; split; [exact (fetch_undecodable _ _ _ _ _ Hs Hst Hc) |].
        intros e [= <-]. unfold isinstance; cbn [exn_class]. now destruct f.
Qed.

(** ** Outcomes of [main] *)

Lemma main_returned env t username city t' :
  fetch_data_from_api env t = (inr (username, city), t') ->
  main env t = (inr tt, t' ++ [PRINT (success_line username city)]).
Proof.
  intros H. unfold main, try_except.
  now rewrite (bind_returned _ _ _ _ _ H).
Qed.

Lemma main_raised env t e t' :
  fetch_data_from_api env t = (inl e, t') ->
  isinstance e Exception = true ->
  main env t = (inr tt, t' ++ [PRINT (report e)]).
Proof.
  intros H He. unfold main, try_except.
  rewrite (bind_raised _ _ _ _ _ H). cbn [List.find fst snd]. unfold report.
  destruct (isinstance e RequestException); [reflexivity |].
  destruct (isinstance e KeyError); [reflexivity |].
  now rewrite He.
Qed.

Lemma run_returned env username city :
  fetch_data_from_api env [] = (inr (username, city), [GET api_url]) ->
  run env = (0, [GET api_url; PRINT (success_line username city)]).
Proof. intros H. unfold run. now rewrite (main_returned _ _ _ _ _ H). Qed.

Lemma run_raised env e :
  fetch_data_from_api env [] = (inl e, [GET api_url]) ->
  isinstance e Exception = true ->
  run env = (0, [GET api_url; PRINT (report e)]).
Proof. intros H He. unfold run. now rewrite (main_raised _ _ _ _ H He). Qed.

(** ** The text of the lines *)

Lemma append_empty_r (s : string) : s +:+ EmptyString = s.
Proof.
  induction s as [|c s IH]; [reflexivity |].
  change (String c (s +:+ EmptyString) = String c s). now rewrite IH.
Qed.

Lemma render_message (p msg : string) (c : pyclass) :
  issubclass c KeyError = false ->
  render [Lit p; Field (Caught (Exn c (Arg (JStr msg))))] = Some (p +:+ msg).
Proof.
  intros H. cbn [render py_format]. unfold py_str_exn, isinstance.
  cbn [exn_args exn_class]. rewrite H. cbn. now rewrite append_empty_r.
Qed.

Lemma prefix_append (p s r : string) :
  String.prefix p s = true -> String.prefix p (s +:+ r) = true.
Proof.
  revert s. induction p as [|a p IH]; intros s H;
    [now destruct (s +:+ r) |].
  destruct s as [|b s]; [discriminate |].
  change (String b s +:+ r) with (String b (s +:+ r)).
  cbn [String.prefix] in *.
  destruct (Ascii.ascii_dec a b); [now apply IH | discriminate].
Qed.

(** The rendered text opens with the literal the line begins with. *)
Lemma render_begins_with p line text :
  begins_with p line = true -> render line = Some text ->
  String.prefix p text = true.
Proof.
  destruct line as [|[s|o] rest]; cbn [begins_with]; try discriminate.
  intros Hp. cbn [render]. destruct (render rest) as [r|]; [| discriminate].
  intros [= <-]. now apply prefix_append.
Qed.

(** ** Reading the shape of a body back from the vocabulary *)

Lemma at_path_two_inv k1 k2 o v :
  at_path [k1; k2] o = Some v ->
  exists d1 d2 : gmap string json,
    o = JDict d1 /\ d1 !! k1 = Some (JDict d2) /\ d2 !! k2 = Some v.
Proof.
  rewrite at_path_two. destruct o as [| | | | | |d1]; try discriminate.
  cbn [member]. destruct (d1 !! k1) as [[| | | | | |d2]|] eqn:E1;
    try discriminate.
  cbn [mbind option_bind member]. intros E2. now exists d1, d2.
Qed.

Lemma extracted_inv data p :
  extracted data = Some p ->
  exists success record rest,
    member "success" data = Some success /\ py_truthy success = true /\
    at_path ["data"; "data"] data = Some (JList (record :: rest)) /\
    at_path ["login"; "username"] record = Some (fst p) /\
    at_path ["location"; "city"] record = Some (snd p).
Proof.
  unfold extracted.
  destruct (member "success" data) as [success|]; [| discriminate].
  cbn [mbind option_bind].
  destruct (py_truthy success) eqn:Ht; [| discriminate].
  destruct (at_path ["data"; "data"] data) as [records|]; [| discriminate].
  cbn [mbind option_bind].
  destruct records as [| | | | |[|record rest]|]; try discriminate.
  cbn [first_record mbind option_bind].
  destruct (at_path ["login"; "username"] record) as [username|] eqn:Hu;
    [| discriminate].
  cbn [mbind option_bind].
  destruct (at_path ["location"; "city"] record) as [city|] eqn:Hc;
    [| discriminate].
  cbn [mbind option_bind]. intros [= <-]. now exists success, record, rest.
Qed.

Ltac answered :=
  eexists; split; [reflexivity | split; [cbn; lia | reflexivity]].

(** ** The claims *)

(** C1.  For every response the script decodes whose body has the expected
    shape ([success] true in Python's sense, [data.data] a non-empty list,
    a first record with [login.username] and [location.city]),
    [fetch_data_from_api] returns the pair of these two values of the first
    record, as they stand in the body. *)
Theorem fetch_returns_first_record
    env data success record rest username city t :
  parsed_response env data ->
  member "success" data = Some success ->
  py_truthy success = true ->
  at_path ["data"; "data"] data = Some (JList (record :: rest)) ->
  at_path ["login"; "username"] record = Some username ->
  at_path ["location"; "city"] record = Some city ->
  fetch_data_from_api env t = (inr (username, city), t ++ [GET api_url]).
Proof.
  intros Hp Hs Ht Hr Hu Hc.
  pose proof (fetch_parsed_cases env data t Hp) as H. unfold extracted in H.
  rewrite Hs in H. cbn [mbind option_bind] in H. rewrite Ht, Hr in H.
  cbn [mbind option_bind first_record] in H. rewrite Hu in H.
  cbn [mbind option_bind] in H. rewrite Hc in H. exact H.
Qed.

Lemma fetch_returns_first_record_witness :
  fetch_data_from_api (answering since_2_27 200 (Parsed canned)) [] =
  (inr (JStr "jdoe", JStr "Paris"), [GET api_url]).
Proof.
  apply (fetch_returns_first_record _ canned (JBool true) canned_record []
           (JStr "jdoe") (JStr "Paris") []);
    [answered | reflexivity ..].
Defined.

(** C2.  When the body of the end-to-end example arrives with a 2xx status,
    the program prints exactly one line, and its text is
    [Username: jdoe, City: Paris]. *)
Theorem canned_response_prints_username_and_city env r :
  server env api_url = Answered r ->
  200 <= status_code r < 300 ->
  content r = Parsed canned ->
  exists line,
    run env = (0, [GET api_url; PRINT line]) /\
    render line = Some "Username: jdoe, City: Paris".
Proof.
  intros Hs Hst Hc.
  assert (parsed_response env canned) as Hp.
  { exists r. split; [exact Hs |]. split; [lia | exact Hc]. }
  assert (extracted canned = Some (JStr "jdoe", JStr "Paris")) as E
    by (vm_compute; reflexivity).
  pose proof (fetch_parsed_cases env canned [] Hp) as H. rewrite E in H.
  exists (success_line (JStr "jdoe") (JStr "Paris")).
  split; [now apply run_returned | reflexivity].
Qed.

Lemma canned_response_prints_username_and_city_witness :
  exists line,
    run (answering since_2_27 200 (Parsed canned)) =
      (0, [GET api_url; PRINT line]) /\
    render line = Some "Username: jdoe, City: Paris".
Proof.
  apply (canned_response_prints_username_and_city _
           {| status_code := 200; reason := EmptyString; url := api_url;
              content := Parsed canned |});
    [reflexivity | cbn; lia | reflexivity].
Defined.

(** C3 fails as stated.  In [null_data] the flag [success] is true and there
    is no value at [data.data], yet the script does not reach line 67: the
    test ["data" in data["data"]] is applied to [None] and raises a
    [TypeError]. *)
Lemma null_data_raises_type_error :
  parsed_response (answering since_2_27 200 (Parsed null_data)) null_data /\
  member "success" null_data = Some (JBool true) /\
  py_truthy (JBool true) = true /\
  at_path ["data"; "data"] null_data = None /\
  fetch_data_from_api (answering since_2_27 200 (Parsed null_data)) [] =
    (inl (Exn TypeError (Unsupported Membership NoneType)), [GET api_url]) /\
  Exn TypeError (Unsupported Membership NoneType) <> invalid_data.
Proof.
  split; [answered |]. repeat split; try (vm_compute; reflexivity).
  discriminate.
Qed.

(** C3, amended.  For every decoded response with a [success] member that
    is false in Python's sense, or whose [data] member is absent or is an
    object without a [data] member, [fetch_data_from_api] raises
    [Exception("API request failed or returned invalid data")], whatever
    else the body holds. *)
Theorem invalid_envelope_raises env data success t :
  parsed_response env data ->
  member "success" data = Some success ->
  py_truthy success = false \/
  member "data" data = None \/
  (exists inner : gmap string json,
     member "data" data = Some (JDict inner) /\ inner !! "data" = None) ->
  fetch_data_from_api env t = (inl invalid_data, t ++ [GET api_url]).
Proof.
  intros Hp Hs H. enter_script Hp.
  destruct data as [| | | | | |d]; try discriminate. cbn [member] in Hs, H.
  rewrite (getitem_found _ _ _ Hs), bind_ret.
  destruct (py_truthy success) eqn:Ht; [| now rewrite py_and_false, bind_ret].
  rewrite py_and_true.
  destruct H as [H | [H | (inner & H & Hi)]]; [discriminate | |].
  - now rewrite (contains_missing _ _ H), py_and_false, bind_ret.
  - rewrite (contains_found _ _ _ H), py_and_true.
    rewrite (getitem_found _ _ _ H), bind_ret.
    now rewrite (contains_missing _ _ Hi), bind_ret.
Qed.

Lemma invalid_envelope_raises_witness :
  fetch_data_from_api (answering since_2_27 200 (Parsed unsuccessful)) [] =
  (inl invalid_data, [GET api_url]).
Proof.
  apply (invalid_envelope_raises _ unsuccessful (JBool false) []);
    [answered | reflexivity | left; reflexivity].
Defined.

(** C4 fails as stated.  With an empty [data.data] the subscription [[0]]
    raises [IndexError], which is not a [KeyError]: the third [except]
    clause handles it and the line does not begin with
    [Error parsing API response:]. *)
Lemma empty_records_reported_as_unexpected :
  parsed_response (answering since_2_27 200 (Parsed no_records)) no_records /\
  member "success" no_records = Some (JBool true) /\
  at_path ["data"; "data"] no_records = Some (JList []) /\
  exists line,
    run (answering since_2_27 200 (Parsed no_records)) =
      (0, [GET api_url; PRINT line]) /\
    begins_with "Error parsing API response:" line = false /\
    render line = Some "An unexpected error occurred: list index out of range".
Proof.
  split; [answered |]. repeat split; try (vm_compute; reflexivity).
  eexists. repeat split; vm_compute; reflexivity.
Qed.

(** C4, amended.  For every decoded response with a valid envelope whose
    [data.data] is the empty list, [fetch_data_from_api] raises
    [IndexError("list index out of range")], and the program prints the one
    line [An unexpected error occurred: list index out of range]. *)
Theorem empty_records_raise_index_error env data success t :
  parsed_response env data ->
  member "success" data = Some success ->
  py_truthy success = true ->
  at_path ["data"; "data"] data = Some (JList []) ->
  fetch_data_from_api env t =
    (inl (Exn IndexError (Arg (JStr "list index out of range"))),
     t ++ [GET api_url]) /\
  exists line,
    run env = (0, [GET api_url; PRINT line]) /\
    begins_with "An unexpected error occurred:" line = true /\
    render line = Some "An unexpected error occurred: list index out of range".
Proof.
  intros Hp Hs Ht Hr.
  assert (forall t', fetch_data_from_api env t' =
            (inl (Exn IndexError (Arg (JStr "list index out of range"))),
             t' ++ [GET api_url])) as H.
  { intros t'.
    destruct (at_path_two_inv _ _ _ _ Hr) as (d1 & d2 & -> & H1 & H2).
    cbn [member] in Hs. enter_script Hp.
    rewrite (getitem_found _ _ _ Hs), bind_ret, Ht, py_and_true.
    rewrite (contains_found _ _ _ H1), py_and_true.
    rewrite !(getitem_found _ _ _ H1), !bind_ret.
    rewrite (contains_found _ _ _ H2), bind_ret.
    rewrite (getitem_found _ _ _ H2), bind_ret.
    now rewrite getitem_empty_list. }
  split; [apply H |]. eexists.
  split; [apply run_raised; [apply H | reflexivity] |].
  split; reflexivity.
Qed.

Lemma empty_records_raise_index_error_witness :
  fetch_data_from_api (answering since_2_27 200 (Parsed no_records)) [] =
    (inl (Exn IndexError (Arg (JStr "list index out of range"))),
     [GET api_url]) /\
  exists line,
    run (answering since_2_27 200 (Parsed no_records)) =
      (0, [GET api_url; PRINT line]) /\
    begins_with "An unexpected error occurred:" line = true /\
    render line = Some "An unexpected error occurred: list index out of range".
Proof.
  apply (empty_records_raise_index_error _ no_records (JBool true) []);
    [answered | reflexivity ..].
Defined.

(** C5 fails as stated.  In [null_login] the first record has no
    [login.username], because [login] is [None]; the subscription
    [["username"]] raises a [TypeError], which the third [except] clause
    handles. *)
Lemma null_login_reported_as_unexpected :
  parsed_response (answering since_2_27 200 (Parsed null_login)) null_login /\
  member "success" null_login = Some (JBool true) /\
  (exists record rest,
     at_path ["data"; "data"] null_login = Some (JList (record :: rest)) /\
     at_path ["login"; "username"] record = None) /\
  fetch_data_from_api (answering since_2_27 200 (Parsed null_login)) [] =
    (inl (Exn TypeError (Unsupported Subscription NoneType)), [GET api_url]) /\
  exists line,
    run (answering since_2_27 200 (Parsed null_login)) =
      (0, [GET api_url; PRINT line]) /\
    begins_with "Error parsing API response:" line = false /\
    begins_with "An unexpected error occurred:" line = true.
Proof.
  split; [answered |]. split; [vm_compute; reflexivity |].
  split; [do 2 eexists; split; vm_compute; reflexivity |].
  split; [vm_compute; reflexivity |].
  eexists. repeat split; vm_compute; reflexivity.
Qed.

(** C5, amended.  For every decoded response with a valid envelope whose
    first record is an object without a [login] member, or with a [login]
    object without a [username] member, [fetch_data_from_api] raises the
    [KeyError] of that key, and the program prints the one line
    [Error parsing API response: 'login'] (or ['username']). *)
Theorem missing_login_field_raises_key_error
    env data success (record : gmap string json) rest key t :
  parsed_response env data ->
  member "success" data = Some success ->
  py_truthy success = true ->
  at_path ["data"; "data"] data = Some (JList (JDict record :: rest)) ->
  (record !! "login" = None /\ key = "login") \/
  (exists login : gmap string json,
     record !! "login" = Some (JDict login) /\
     login !! "username" = None /\ key = "username") ->
  fetch_data_from_api env t =
    (inl (Exn KeyError (Arg (JStr key))), t ++ [GET api_url]) /\
  exists line,
    run env = (0, [GET api_url; PRINT line]) /\
    begins_with "Error parsing API response:" line = true /\
    render line = Some ("Error parsing API response: '" +:+ key +:+ "'").
Proof.
  intros Hp Hs Ht Hr Hk.
  assert (forall t', fetch_data_from_api env t' =
            (inl (Exn KeyError (Arg (JStr key))), t' ++ [GET api_url])) as H.
  { intros t'.
    destruct (at_path_two_inv _ _ _ _ Hr) as (d1 & d2 & -> & H1 & H2).
    cbn [member] in Hs. enter_script Hp.
    rewrite (getitem_found _ _ _ Hs), bind_ret, Ht, py_and_true.
    rewrite (contains_found _ _ _ H1), py_and_true.
    rewrite !(getitem_found _ _ _ H1), !bind_ret.
    rewrite (contains_found _ _ _ H2), bind_ret.
    rewrite (getitem_found _ _ _ H2), bind_ret, getitem_first, bind_ret.
    destruct Hk as [(Hl & ->) | (login & Hl & Hu & ->)].
    - now rewrite (getitem_missing _ _ Hl), !bind_throw.
    - rewrite (getitem_found _ _ _ Hl), bind_ret.
      now rewrite (getitem_missing _ _ Hu), bind_throw. }
  split; [apply H |]. eexists.
  split; [apply run_raised; [apply H | reflexivity] |].
  destruct Hk as [(_ & ->) | (login & _ & _ & ->)]; split; reflexivity.
Qed.

Lemma missing_login_field_raises_key_error_witness :
  fetch_data_from_api (answering since_2_27 200 (Parsed no_login)) [] =
    (inl (Exn KeyError (Arg (JStr "login"))), [GET api_url]) /\
  exists line,
    run (answering since_2_27 200 (Parsed no_login)) =
      (0, [GET api_url; PRINT line]) /\
    begins_with "Error parsing API response:" line = true /\
    render line = Some "Error parsing API response: 'login'".
Proof.
  apply (missing_login_field_raises_key_error _ no_login (JBool true)
           {[ "location" := in_paris ]} [] "login" []);
    [answered | reflexivity | reflexivity | reflexivity |].
  left. split; reflexivity.
Defined.

(** C6 fails as stated.  [raise_for_status] raises for the statuses 400 to
    599 only: a response with status 300 (several representations offered,
    no redirection followed) is not 2xx, and the script goes on to decode
    its body and returns. *)
Lemma multiple_choices_is_not_an_error :
  ~ (200 <= 300 < 300) /\
  server (answering since_2_27 300 (Parsed canned)) api_url =
    Answered {| status_code := 300; reason := EmptyString; url := api_url;
                content := Parsed canned |} /\
  fetch_data_from_api (answering since_2_27 300 (Parsed canned)) [] =
    (inr (JStr "jdoe", JStr "Paris"), [GET api_url]) /\
  run (answering since_2_27 300 (Parsed canned)) =
    (0, [GET api_url; PRINT (success_line (JStr "jdoe") (JStr "Paris"))]).
Proof. split; [lia |]. repeat split; vm_compute; reflexivity. Qed.

(** C6, amended.  When [requests.get] fails (refused connection, name
    resolution, timeout, ...) and when the response has a status from 400 to
    599, [fetch_data_from_api] raises a [RequestException]: the exception
    of the transport with its message, or the [HTTPError] of the response.
    The program prints the one line [Network error occurred: <message>]. *)
Theorem network_failures_reported env :
  (exists f msg, server env api_url = Failed f msg) \/
  (exists r, server env api_url = Answered r /\ 400 <= status_code r < 600) ->
  exists c msg,
    issubclass c RequestException = true /\
    (forall t, fetch_data_from_api env t =
               (inl (Exn c (Arg (JStr msg))), t ++ [GET api_url])) /\
    (forall f msg', server env api_url = Failed f msg' ->
                    c = raised_class f /\ msg = msg') /\
    (forall r, server env api_url = Answered r -> c = HTTPError) /\
    exists line,
      run env = (0, [GET api_url; PRINT line]) /\
      begins_with "Network error" line = true /\
      render line = Some ("Network error occurred: " +:+ msg).
Proof.
  intros [(f & msg & Hs) | (r & Hs & Hst)].
  - exists (raised_class f), msg.
    split; [apply raised_class_request |].
    split; [intros t; apply (fetch_transport_failure _ _ _ _ Hs) |].
    split.
    { intros f' msg' Hs'. rewrite Hs in Hs'. now injection Hs' as <- <-. }
    split; [intros r Hs'; rewrite Hs in Hs'; discriminate |].
    eexists. split.
    + apply run_raised; [apply (fetch_transport_failure _ _ _ [] Hs) |].
      unfold isinstance; cbn [exn_class]. now destruct f.
    + unfold report, isinstance; cbn [exn_class].
      rewrite raised_class_request. split; [reflexivity |].
      apply render_message. now destruct f.
  - destruct (fetch_http_error env r Hs Hst) as (msg & H).
    exists HTTPError, msg. split; [reflexivity |]. split; [exact H |].
    split; [intros f msg' Hs'; rewrite Hs in Hs'; discriminate |].
    split; [reflexivity |].
    eexists. split; [apply run_raised; [apply H | reflexivity] |].
    split; [reflexivity |]. now apply render_message.
Qed.

Lemma network_failures_reported_witness :
  exists c msg,
    issubclass c RequestException = true /\
    (forall t, fetch_data_from_api refusing t =
               (inl (Exn c (Arg (JStr msg))), t ++ [GET api_url])) /\
    (forall f msg', server refusing api_url = Failed f msg' ->
                    c = raised_class f /\ msg = msg') /\
    (forall r, server refusing api_url = Answered r -> c = HTTPError) /\
    exists line,
      run refusing = (0, [GET api_url; PRINT line]) /\
      begins_with "Network error" line = true /\
      render line = Some ("Network error occurred: " +:+ msg).
Proof.
  apply (network_failures_reported refusing).
  left. exists connection_refused, "Connection refused". reflexivity.
Defined.

(** C7 fails as stated.  Since release 2.27 of [requests], [json()] turns
    the decoder's syntax error into [requests.exceptions.JSONDecodeError],
    a [RequestException]: the first [except] clause handles it and the line
    begins with [Network error occurred:]. *)
Lemma malformed_body_reported_as_network_error :
  exists line,
    run (answering since_2_27 200
           (Malformed "Expecting value: line 1 column 1 (char 0)")) =
      (0, [GET api_url; PRINT line]) /\
    begins_with "An unexpected error occurred:" line = false /\
    render line =
      Some "Network error occurred: Expecting value: line 1 column 1 (char 0)".
Proof. eexists. repeat split; vm_compute; reflexivity. Qed.

(** C7, amended.  For every 2xx response on which [json()] raises, the
    exception reaches [main], which never handles it in the [KeyError]
    clause.  When the decoder reports a syntax error, [requests] 2.27 or
    later raises a [RequestException] and the program prints
    [Network error occurred: <diagnostic>], an earlier release lets the
    [ValueError] of the decoder through and the program prints
    [An unexpected error occurred: <diagnostic>].  When the decoder gives up
    otherwise (an integer literal too long, a nesting too deep), its
    [ValueError] or [RecursionError] comes through under every release and
    the program prints [An unexpected error occurred: <message>]. *)
Theorem malformed_body_reported_by_class env r :
  server env api_url = Answered r ->
  200 <= status_code r < 300 ->
  json_raises r = true ->
  exists line,
    run env = (0, [GET api_url; PRINT line]) /\
    begins_with "Error parsing API response:" line = false /\
    match content r with
    | Malformed diagnostic =>
        render line =
          Some (match requests_release env with
                | since_2_27 => "Network error occurred: "
                | before_2_27 => "An unexpected error occurred: "
                end +:+ diagnostic)
    | Undecodable _ msg =>
        render line = Some ("An unexpected error occurred: " +:+ msg)
    | Parsed _ => False
    end.
Proof.
  intros Hs Hst Hj.
  assert (~ (400 <= status_code r < 600)) as Hok by lia.
  unfold json_raises in Hj.
  destruct (content r) as [diagnostic|data|f msg] eqn:Hc; [| discriminate |].
  - pose proof (fetch_malformed env r diagnostic [] Hs Hok Hc) as H.
    eexists. split.
    + apply run_raised; [exact H |].
      unfold isinstance; cbn [exn_class]. now destruct (requests_release env).
    + unfold report, isinstance; cbn [exn_class].
      destruct (requests_release env); cbn [decode_error_class];
        (split; [reflexivity | now apply render_message]).
  - pose proof (fetch_undecodable env r f msg [] Hs Hok Hc) as H.
    eexists. split.
    + apply run_raised; [exact H |].
      unfold isinstance; cbn [exn_class]. now destruct f.
    + unfold report, isinstance; cbn [exn_class].
      destruct f; cbn [decoder_failure_class];
        (split; [reflexivity | now apply render_message]).
Qed.

Lemma malformed_body_reported_by_class_witness :
  exists line,
    run (answering since_2_27 200
           (Undecodable integer_too_long "Exceeds the limit")) =
      (0, [GET api_url; PRINT line]) /\
    begins_with "Error parsing API response:" line = false /\
    render line =
      Some ("An unexpected error occurred: " +:+ "Exceeds the limit").
Proof.
  apply (malformed_body_reported_by_class
           (answering since_2_27 200
              (Undecodable integer_too_long "Exceeds the limit"))
           {| status_code := 200; reason := EmptyString; url := api_url;
              content := Undecodable integer_too_long "Exceeds the limit" |});
    [reflexivity | cbn; lia | reflexivity].
Defined.

(** C8.  Whatever the network does, [fetch_data_from_api] either raises, or
    returns a pair whose two components are the values the decoded body
    holds at [login.username] and at [location.city] of the first record of
    [data.data].  It returns nothing else. *)
Theorem fetch_returns_both_or_fails env t :
  (exists e, fetch_data_from_api env t = (inl e, t ++ [GET api_url])) \/
  (exists data success record rest username city,
     parsed_response env data /\
     member "success" data = Some success /\
     py_truthy success = true /\
     at_path ["data"; "data"] data = Some (JList (record :: rest)) /\
     at_path ["login"; "username"] record = Some username /\
     at_path ["location"; "city"] record = Some city /\
     fetch_data_from_api env t = (inr (username, city), t ++ [GET api_url])).
Proof.
  destruct (server env api_url) as [f msg|r] eqn:Hs.
  { left. eexists. exact (fetch_transport_failure _ _ _ _ Hs). }
  destruct (decide (400 <= status_code r < 600)) as [Hst|Hst].
  { left. destruct (fetch_http_error env r Hs Hst) as (msg & H).
    eexists. apply H. }
  destruct (content r) as [diagnostic|data|f msg] eqn:Hc.
  { left. eexists. exact (fetch_malformed _ _ _ _ Hs Hst Hc). }
  2: { left. eexists. exact (fetch_undecodable _ _ _ _ _ Hs Hst Hc). }
  assert (parsed_response env data) as Hp by (now exists r).
  pose proof (fetch_parsed_cases env data t Hp) as H.
  destruct (extracted data) as [[username city]|] eqn:E.
  - right. destruct (extracted_inv _ _ E) as (success & record & rest & H').
    exists data, success, record, rest, username, city.
    cbn [fst snd] in H'. intuition.
  - left. destruct H as (e & H & _). now exists e.
Qed.

(** C9.  Whatever the network does, the program sends its request once,
    prints exactly one line (the line of the [try] body when the fetch
    returns, the line of the matching [except] clause when it raises) and
    [main] returns: no exception leaves it and the exit status is 0. *)
Theorem main_reports_once_and_returns env :
  exists x line,
    fetch_data_from_api env [] = (x, [GET api_url]) /\
    line = match x with
           | inr (username, city) => success_line username city
           | inl e => report e
           end /\
    main env [] = (inr tt, [GET api_url; PRINT line]) /\
    run env = (0, [GET api_url; PRINT line]).
Proof.
  destruct (fetch_total env []) as (x & H & Hx). cbn [app] in H.
  exists x. destruct x as [e|[username city]]; eexists;
    (split; [exact H |]); (split; [reflexivity |]).
  - split; [exact (main_raised _ _ _ _ H (Hx e eq_refl)) |].
    exact (run_raised _ _ H (Hx e eq_refl)).
  - split; [exact (main_returned _ _ _ _ _ H) |].
    exact (run_returned _ _ _ H).
Qed.

(** C10.  For every decoded response that is an object without a [success]
    member, the subscription [data["success"]] at line 60 raises
    [KeyError('success')] before anything is validated; the second [except]
    clause handles it and the program prints
    [Error parsing API response: 'success'], not the message of line 67. *)
Theorem missing_success_key_is_key_error env (d : gmap string json) t :
  parsed_response env (JDict d) ->
  d !! "success" = None ->
  fetch_data_from_api env t =
    (inl (Exn KeyError (Arg (JStr "success"))), t ++ [GET api_url]) /\
  exists line,
    run env = (0, [GET api_url; PRINT line]) /\
    begins_with "Error parsing API response:" line = true /\
    render line = Some "Error parsing API response: 'success'".
Proof.
  intros Hp Hs.
  assert (forall t', fetch_data_from_api env t' =
            (inl (Exn KeyError (Arg (JStr "success"))), t' ++ [GET api_url]))
    as H.
  { intros t'. enter_script Hp.
    rewrite (getitem_missing _ _ Hs).
    now rewrite bind_throw, py_and_throw, bind_throw. }
  split; [apply H |]. eexists.
  split; [apply run_raised; [apply H | reflexivity] |]. split; reflexivity.
Qed.

Lemma missing_success_key_is_key_error_witness :
  fetch_data_from_api (answering since_2_27 200 (Parsed no_success)) [] =
    (inl (Exn KeyError (Arg (JStr "success"))), [GET api_url]) /\
  exists line,
    run (answering since_2_27 200 (Parsed no_success)) =
      (0, [GET api_url; PRINT line]) /\
    begins_with "Error parsing API response:" line = true /\
    render line = Some "Error parsing API response: 'success'".
Proof.
  apply (missing_success_key_is_key_error
           (answering since_2_27 200 (Parsed no_success))
           {[ "data" := JDict {[ "data" := JList [] ]} ]} []);
    [answered | reflexivity].
Defined.

(** ** The script after the decoding *)

Lemma fetch_after_decoding env :
  fetch_data_from_api env =
  (response <- requests_get env api_url ;;
   raise_for_status response ;;;
   data <- Response_json env response ;;
   validate_and_extract data).
Proof. reflexivity. Qed.

Lemma effect_free_ret {A : Type} (a : A) : effect_free (ret a).
Proof. now exists (inr a). Qed.

Lemma effect_free_throw {A : Type} (e : exn) : effect_free (@throw A e).
Proof. now exists (inl e). Qed.

Lemma effect_free_bind {A B : Type} (m : Py A) (k : A -> Py B) :
  effect_free m -> (forall a, effect_free (k a)) -> effect_free (bind m k).
Proof.
  intros [[e|a] Hm] Hk.
  - exists (inl e). intros t. unfold bind. now rewrite Hm.
  - destruct (Hk a) as [y Hy]. exists y. intros t. unfold bind.
    now rewrite Hm, Hy.
Qed.

Lemma effect_free_getitem o k : effect_free (py_getitem o k).
Proof.
  unfold py_getitem.
  repeat match goal with
         | |- effect_free (match ?x with _ => _ end) => destruct x
         end;
    (apply effect_free_ret || apply effect_free_throw).
Qed.

Lemma effect_free_contains s o : effect_free (py_contains s o).
Proof.
  unfold py_contains.
  repeat match goal with
         | |- effect_free (match ?x with _ => _ end) => destruct x
         end;
    (apply effect_free_ret || apply effect_free_throw).
Qed.

Lemma effect_free_and (a b : Py bool) :
  effect_free a -> effect_free b -> effect_free (py_and a b).
Proof.
  intros Ha Hb. apply effect_free_bind; [exact Ha |].
  intros [|]; [exact Hb | apply effect_free_ret].
Qed.

Ltac effect_free :=
  repeat first
    [ apply effect_free_ret
    | apply effect_free_throw
    | apply effect_free_getitem
    | apply effect_free_contains
    | apply effect_free_and
    | apply effect_free_bind; [| intros ?] ].

Lemma effect_free_validate_and_extract data :
  effect_free (validate_and_extract data).
Proof.
  unfold validate_and_extract. apply effect_free_bind; [effect_free |].
  intros [|]; effect_free.
Qed.

(** After the decoding the script only computes on [data]. *)
Lemma fetch_parsed env data t :
  parsed_response env data ->
  fetch_data_from_api env t =
  (fst (validate_and_extract data []), t ++ [GET api_url]).
Proof.
  intros (r & Hs & Hst & Hc). rewrite fetch_after_decoding.
  rewrite (get_answered _ _ _ _ _ Hs).
  rewrite (raise_for_status_passes _ Hst), bind_ret.
  rewrite (json_parsed _ _ _ Hc), bind_ret.
  destruct (effect_free_validate_and_extract data) as [x Hx].
  now rewrite !Hx.
Qed.

Lemma getitem_insert_ne (d : gmap string json) k k' v :
  k <> k' ->
  py_getitem (JDict (<[k := v]> d)) (Key k') = py_getitem (JDict d) (Key k').
Proof. intros H. unfold py_getitem. now rewrite lookup_insert_ne. Qed.

Lemma contains_insert_ne (d : gmap string json) k k' v :
  k <> k' ->
  py_contains k' (JDict (<[k := v]> d)) = py_contains k' (JDict d).
Proof. intros H. unfold py_contains. now rewrite lookup_insert_ne. Qed.

Lemma getitem_inserted (d : gmap string json) k v :
  py_getitem (JDict (<[k := v]> d)) (Key k) = ret v.
Proof. apply getitem_found, lookup_insert_eq. Qed.

Lemma contains_inserted (d : gmap string json) k v :
  py_contains k (JDict (<[k := v]> d)) = ret true.
Proof. eapply contains_found, lookup_insert_eq. Qed.

Lemma run_unexpected env e :
  fetch_data_from_api env [] = (inl e, [GET api_url]) ->
  isinstance e RequestException = false ->
  isinstance e KeyError = false ->
  isinstance e Exception = true ->
  exists line,
    run env = (0, [GET api_url; PRINT line]) /\
    begins_with "An unexpected error occurred:" line = true.
Proof.
  intros H Hr Hk He. eexists. split; [exact (run_raised _ _ H He) |].
  unfold report. now rewrite Hr, Hk.
Qed.

(** ** Further properties of the script *)

(** X1.  Once the body is decoded, the result of [fetch_data_from_api]
    depends on the decoded body alone: not on the status (as long as
    [raise_for_status] passes), on the reason, on the final URL, on the
    installed [requests] or on what was sent and printed before. *)
Theorem result_depends_on_body_only env env' data t t' :
  parsed_response env data ->
  parsed_response env' data ->
  fst (fetch_data_from_api env t) = fst (fetch_data_from_api env' t').
Proof.
  intros H H'. now rewrite (fetch_parsed _ _ _ H), (fetch_parsed _ _ _ H').
Qed.

Lemma result_depends_on_body_only_witness :
  fst (fetch_data_from_api (answering since_2_27 200 (Parsed canned)) []) =
  fst (fetch_data_from_api (answering before_2_27 300 (Parsed canned))
         [GET api_url]).
Proof.
  apply (result_depends_on_body_only _ _ canned); answered.
Defined.

(** X2.  When the decoded body is not an object (an array, a string, a
    number, a boolean or null), the subscription [data["success"]] at line
    60 raises a [TypeError]; the third [except] clause handles it and the
    program prints a line that begins with [An unexpected error
    occurred:]. *)
Theorem non_object_body_raises_type_error env data t :
  parsed_response env data ->
  type_of data <> dict_t ->
  fetch_data_from_api env t =
    (inl (Exn TypeError (Unsupported Subscription (type_of data))),
     t ++ [GET api_url]) /\
  exists line,
    run env = (0, [GET api_url; PRINT line]) /\
    begins_with "An unexpected error occurred:" line = true.
Proof.
  intros Hp Ht.
  assert (forall t', fetch_data_from_api env t' =
            (inl (Exn TypeError (Unsupported Subscription (type_of data))),
             t' ++ [GET api_url])) as H.
  { intros t'. rewrite (fetch_parsed _ _ _ Hp).
    destruct data; try reflexivity. now destruct Ht. }
  split; [apply H |]. now apply (run_unexpected _ _ (H [])).
Qed.

Lemma non_object_body_raises_type_error_witness :
  fetch_data_from_api (answering since_2_27 200 (Parsed (JList []))) [] =
    (inl (Exn TypeError (Unsupported Subscription list_t)), [GET api_url]) /\
  exists line,
    run (answering since_2_27 200 (Parsed (JList []))) =
      (0, [GET api_url; PRINT line]) /\
    begins_with "An unexpected error occurred:" line = true.
Proof.
  apply (non_object_body_raises_type_error _ (JList []) []);
    [answered | discriminate].
Defined.

(** X3.  When [success] is true and [data] is null, a boolean or a number,
    the test ["data" in data["data"]] at line 60 raises a [TypeError]
    instead of failing the validation; the program prints a line that
    begins with [An unexpected error occurred:]. *)
Theorem scalar_data_raises_type_error env (d : gmap string json) success v t :
  parsed_response env (JDict d) ->
  d !! "success" = Some success ->
  py_truthy success = true ->
  d !! "data" = Some v ->
  scalar v = true ->
  fetch_data_from_api env t =
    (inl (Exn TypeError (Unsupported Membership (type_of v))),
     t ++ [GET api_url]) /\
  exists line,
    run env = (0, [GET api_url; PRINT line]) /\
    begins_with "An unexpected error occurred:" line = true.
Proof.
  intros Hp Hs Ht Hd Hv.
  assert (forall t', fetch_data_from_api env t' =
            (inl (Exn TypeError (Unsupported Membership (type_of v))),
             t' ++ [GET api_url])) as H.
  { intros t'. rewrite (fetch_parsed _ _ _ Hp). unfold validate_and_extract.
    rewrite (getitem_found _ _ _ Hs), bind_ret, Ht, py_and_true.
    rewrite (contains_found _ _ _ Hd), py_and_true.
    rewrite (getitem_found _ _ _ Hd), bind_ret.
    destruct v; try discriminate; reflexivity. }
  split; [apply H |]. now apply (run_unexpected _ _ (H [])).
Qed.

Lemma scalar_data_raises_type_error_witness :
  fetch_data_from_api (answering since_2_27 200 (Parsed null_data)) [] =
    (inl (Exn TypeError (Unsupported Membership NoneType)), [GET api_url]) /\
  exists line,
    run (answering since_2_27 200 (Parsed null_data)) =
      (0, [GET api_url; PRINT line]) /\
    begins_with "An unexpected error occurred:" line = true.
Proof.
  apply (scalar_data_raises_type_error _
           {[ "success" := JBool true; "data" := JNull ]}
           (JBool true) JNull []);
    [answered | reflexivity ..].
Defined.

(** The script up to the subscription [[0]] at line 62, for a valid
    envelope. *)
Lemma validate_valid_envelope (d inner : gmap string json) success records :
  d !! "success" = Some success ->
  py_truthy success = true ->
  d !! "data" = Some (JDict inner) ->
  inner !! "data" = Some records ->
  validate_and_extract (JDict d) =
  (user_data <- py_getitem records (Index 0) ;;
   username <- (login <- py_getitem user_data (Key "login") ;;
                py_getitem login (Key "username")) ;;
   location <- (place <- py_getitem user_data (Key "location") ;;
                py_getitem place (Key "city")) ;;
   ret (username, location)).
Proof.
  intros Hs Ht Hd Hi. unfold validate_and_extract.
  rewrite (getitem_found _ _ _ Hs), bind_ret, Ht, py_and_true.
  rewrite (contains_found _ _ _ Hd), py_and_true.
  rewrite !(getitem_found _ _ _ Hd), !bind_ret.
  rewrite (contains_found _ _ _ Hi), bind_ret.
  now rewrite (getitem_found _ _ _ Hi), bind_ret.
Qed.

(** X4.  When the envelope is valid but [data.data] is an object instead of
    a list, the subscription [[0]] at line 62 looks up the key [0] and
    raises [KeyError(0)]; the second [except] clause handles it and the
    program prints [Error parsing API response: 0]. *)
Theorem object_records_raise_key_error
    env data success (records : gmap string json) t :
  parsed_response env data ->
  member "success" data = Some success ->
  py_truthy success = true ->
  at_path ["data"; "data"] data = Some (JDict records) ->
  fetch_data_from_api env t =
    (inl (Exn KeyError (Arg (JInt 0))), t ++ [GET api_url]) /\
  exists line,
    run env = (0, [GET api_url; PRINT line]) /\
    render line = Some "Error parsing API response: 0".
Proof.
  intros Hp Hs Ht Hr.
  destruct (at_path_two_inv _ _ _ _ Hr) as (d & inner & -> & Hd & Hi).
  cbn [member] in Hs.
  assert (forall t', fetch_data_from_api env t' =
            (inl (Exn KeyError (Arg (JInt 0))), t' ++ [GET api_url])) as H.
  { intros t'. rewrite (fetch_parsed _ _ _ Hp).
    now rewrite (validate_valid_envelope _ _ _ _ Hs Ht Hd Hi). }
  split; [apply H |]. eexists.
  split; [apply run_raised; [apply H | reflexivity] | reflexivity].
Qed.

Lemma object_records_raise_key_error_witness :
  fetch_data_from_api
    (answering since_2_27 200 (Parsed (enveloped (JDict canned_fields)))) [] =
    (inl (Exn KeyError (Arg (JInt 0))), [GET api_url]) /\
  exists line,
    run (answering since_2_27 200 (Parsed (enveloped (JDict canned_fields)))) =
      (0, [GET api_url; PRINT line]) /\
    render line = Some "Error parsing API response: 0".
Proof.
  apply (object_records_raise_key_error _ (enveloped (JDict canned_fields))
           (JBool true) canned_fields []);
    [answered | reflexivity ..].
Defined.

(** X5.  When the first record has [login.username] but no [location]
    member, or a [location] object without a [city] member,
    [fetch_data_from_api] raises the [KeyError] of that key at line 64 and
    the program prints [Error parsing API response: 'location'] (or
    ['city']). *)
Theorem missing_location_field_raises_key_error
    env data success (record : gmap string json) rest username key t :
  parsed_response env data ->
  member "success" data = Some success ->
  py_truthy success = true ->
  at_path ["data"; "data"] data = Some (JList (JDict record :: rest)) ->
  at_path ["login"; "username"] (JDict record) = Some username ->
  (record !! "location" = None /\ key = "location") \/
  (exists place : gmap string json,
     record !! "location" = Some (JDict place) /\
     place !! "city" = None /\ key = "city") ->
  fetch_data_from_api env t =
    (inl (Exn KeyError (Arg (JStr key))), t ++ [GET api_url]) /\
  exists line,
    run env = (0, [GET api_url; PRINT line]) /\
    begins_with "Error parsing API response:" line = true /\
    render line = Some ("Error parsing API response: '" +:+ key +:+ "'").
Proof.
  intros Hp Hs Ht Hr Hu Hk.
  destruct (at_path_two_inv _ _ _ _ Hr) as (d & inner & -> & Hd & Hi).
  cbn [member] in Hs.
  pose proof (nested_getitem_cases (JDict record) "login" "username") as Hl.
  rewrite Hu in Hl.
  assert (forall t', fetch_data_from_api env t' =
            (inl (Exn KeyError (Arg (JStr key))), t' ++ [GET api_url])) as H.
  { intros t'. rewrite (fetch_parsed _ _ _ Hp).
    rewrite (validate_valid_envelope _ _ _ _ Hs Ht Hd Hi).
    rewrite getitem_first, bind_ret, Hl, bind_ret.
    destruct Hk as [(Hm & ->) | (place & Hm & Hc & ->)].
    - now rewrite (getitem_missing _ _ Hm).
    - rewrite (getitem_found _ _ _ Hm), bind_ret.
      now rewrite (getitem_missing _ _ Hc). }
  split; [apply H |]. eexists.
  split; [apply run_raised; [apply H | reflexivity] |].
  destruct Hk as [(_ & ->) | (place & _ & _ & ->)]; split; reflexivity.
Qed.

Lemma missing_location_field_raises_key_error_witness :
  fetch_data_from_api
    (answering since_2_27 200
       (Parsed (enveloped (JList [JDict homeless_record])))) [] =
    (inl (Exn KeyError (Arg (JStr "location"))), [GET api_url]) /\
  exists line,
    run (answering since_2_27 200
           (Parsed (enveloped (JList [JDict homeless_record])))) =
      (0, [GET api_url; PRINT line]) /\
    begins_with "Error parsing API response:" line = true /\
    render line = Some "Error parsing API response: 'location'".
Proof.
  apply (missing_location_field_raises_key_error _
           (enveloped (JList [JDict homeless_record])) (JBool true)
           homeless_record [] (JStr "jdoe") "location" []);
    [answered | reflexivity | reflexivity | reflexivity | reflexivity |].
  left. split; reflexivity.
Defined.

(** X6.  Only the first record is read: replacing the records after the
    first by any others leaves the result of [fetch_data_from_api] as it
    is. *)
Theorem only_first_record_is_read
    env env' (d inner : gmap string json) record rest rest' t t' :
  parsed_response env (JDict d) ->
  d !! "data" = Some (JDict inner) ->
  inner !! "data" = Some (JList (record :: rest)) ->
  parsed_response env'
    (JDict (<["data" :=
               JDict (<["data" := JList (record :: rest')]> inner)]> d)) ->
  fst (fetch_data_from_api env t) = fst (fetch_data_from_api env' t').
Proof.
  intros Hp Hd Hi Hp'.
  rewrite (fetch_parsed _ _ _ Hp), (fetch_parsed _ _ _ Hp'). cbn [fst].
  match goal with
  | |- fst (?m []) = fst (?m' []) => enough (m' = m) as E by now rewrite E
  end.
  unfold validate_and_extract.
  rewrite !(getitem_insert_ne _ "data" "success") by discriminate.
  rewrite !getitem_inserted, !contains_inserted, !bind_ret.
  rewrite !getitem_inserted, !contains_inserted, !bind_ret.
  rewrite (contains_found _ _ _ Hd), !(getitem_found _ _ _ Hd), !bind_ret.
  rewrite (contains_found _ _ _ Hi), !(getitem_found _ _ _ Hi), !bind_ret.
  now rewrite !getitem_first.
Qed.

Lemma only_first_record_is_read_witness :
  fst (fetch_data_from_api (answering since_2_27 200 (Parsed canned)) []) =
  fst (fetch_data_from_api
         (answering since_2_27 200
            (Parsed (JDict (<["data" :=
               JDict (<["data" := JList [canned_record; JNull]]>
                        {[ "data" := JList [canned_record] ]})]>
               canned_envelope)))) []).
Proof.
  apply (only_first_record_is_read _ _ canned_envelope
           {[ "data" := JList [canned_record] ]} canned_record [] [JNull]);
    [answered | reflexivity | reflexivity | answered].
Defined.

(** X7.  Members of the envelope other than [success] and [data] are never
    read: adding one, or replacing its value, leaves the result of
    [fetch_data_from_api] as it is. *)
Theorem unread_envelope_members_do_not_matter
    env env' (d : gmap string json) k v t t' :
  k <> "success" ->
  k <> "data" ->
  parsed_response env (JDict d) ->
  parsed_response env' (JDict (<[k := v]> d)) ->
  fst (fetch_data_from_api env t) = fst (fetch_data_from_api env' t').
Proof.
  intros Hs Hd Hp Hp'.
  rewrite (fetch_parsed _ _ _ Hp), (fetch_parsed _ _ _ Hp'). cbn [fst].
  match goal with
  | |- fst (?m []) = fst (?m' []) => enough (m' = m) as E by now rewrite E
  end.
  unfold validate_and_extract.
  rewrite !(getitem_insert_ne _ k "success") by exact Hs.
  rewrite !(getitem_insert_ne _ k "data") by exact Hd.
  now rewrite !(contains_insert_ne _ k "data") by exact Hd.
Qed.

Lemma unread_envelope_members_do_not_matter_witness :
  fst (fetch_data_from_api (answering since_2_27 200 (Parsed canned)) []) =
  fst (fetch_data_from_api
         (answering since_2_27 200
            (Parsed (JDict (<["message" := JStr "ok"]> canned_envelope))))
         []).
Proof.
  apply (unread_envelope_members_do_not_matter _ _ canned_envelope
           "message" (JStr "ok"));
    [discriminate | discriminate | answered | answered].
Defined.

(** X8.  Members of the first record other than [login] and [location] are
    never read: adding one, or replacing its value, leaves the result of
    [fetch_data_from_api] as it is. *)
Theorem unread_record_members_do_not_matter
    env env' (d inner record : gmap string json) rest k v t t' :
  k <> "login" ->
  k <> "location" ->
  parsed_response env (JDict d) ->
  d !! "data" = Some (JDict inner) ->
  inner !! "data" = Some (JList (JDict record :: rest)) ->
  parsed_response env'
    (JDict (<["data" :=
               JDict (<["data" :=
                         JList (JDict (<[k := v]> record) :: rest)]> inner)]>
              d)) ->
  fst (fetch_data_from_api env t) = fst (fetch_data_from_api env' t').
Proof.
  intros Hl Hc Hp Hd Hi Hp'.
  rewrite (fetch_parsed _ _ _ Hp), (fetch_parsed _ _ _ Hp'). cbn [fst].
  match goal with
  | |- fst (?m []) = fst (?m' []) => enough (m' = m) as E by now rewrite E
  end.
  unfold validate_and_extract.
  rewrite !(getitem_insert_ne _ "data" "success") by discriminate.
  rewrite !getitem_inserted, !contains_inserted, !bind_ret.
  rewrite !getitem_inserted, !contains_inserted, !bind_ret.
  rewrite (contains_found _ _ _ Hd), !(getitem_found _ _ _ Hd), !bind_ret.
  rewrite (contains_found _ _ _ Hi), !(getitem_found _ _ _ Hi), !bind_ret.
  rewrite !getitem_first, !bind_ret.
  rewrite !(getitem_insert_ne _ k "login") by exact Hl.
  now rewrite !(getitem_insert_ne _ k "location") by exact Hc.
Qed.

Lemma unread_record_members_do_not_matter_witness :
  fst (fetch_data_from_api
         (answering since_2_27 200
            (Parsed (JDict canned_envelope))) []) =
  fst (fetch_data_from_api
         (answering since_2_27 200
            (Parsed (JDict (<["data" :=
               JDict (<["data" :=
                         JList [JDict (<["gender" := JStr "f"]>
                                         canned_fields)]]>
                        {[ "data" := JList [JDict canned_fields] ]})]>
               canned_envelope)))) []).
Proof.
  apply (unread_record_members_do_not_matter _ _ canned_envelope
           {[ "data" := JList [JDict canned_fields] ]} canned_fields []
           "gender" (JStr "f"));
    [discriminate | discriminate | answered | reflexivity | reflexivity
    | answered].
Defined.

(** X9.  The flag [success] is only tested for truth at line 60: replacing
    its value by any other value with the same truth value (the string
    ["false"] for [True], say) leaves the result of [fetch_data_from_api]
    as it is. *)
Theorem success_is_tested_for_truth_only
    env env' (d : gmap string json) success success' t t' :
  d !! "success" = Some success ->
  py_truthy success' = py_truthy success ->
  parsed_response env (JDict d) ->
  parsed_response env' (JDict (<["success" := success']> d)) ->
  fst (fetch_data_from_api env t) = fst (fetch_data_from_api env' t').
Proof.
  intros Hs Ht Hp Hp'.
  rewrite (fetch_parsed _ _ _ Hp), (fetch_parsed _ _ _ Hp'). cbn [fst].
  match goal with
  | |- fst (?m []) = fst (?m' []) => enough (m' = m) as E by now rewrite E
  end.
  unfold validate_and_extract.
  rewrite getitem_inserted, (getitem_found _ _ _ Hs), !bind_ret, Ht.
  rewrite !(getitem_insert_ne _ "success" "data") by discriminate.
  now rewrite !(contains_insert_ne _ "success" "data") by discriminate.
Qed.

Lemma success_is_tested_for_truth_only_witness :
  fst (fetch_data_from_api (answering since_2_27 200 (Parsed canned)) []) =
  fst (fetch_data_from_api
         (answering since_2_27 200
            (Parsed (JDict (<["success" := JStr "false"]> canned_envelope))))
         []).
Proof.
  apply (success_is_tested_for_truth_only _ _ canned_envelope (JBool true)
           (JStr "false"));
    [reflexivity | reflexivity | answered | answered].
Defined.

(** X10.  The two fields are not required to be strings: when the values
    the first record holds at [login.username] and [location.city] have an
    ASCII text under [str] (null, a boolean, an integer, an ASCII string),
    the program prints that text, so that a null username is printed as
    [None] and a number in decimal. *)
Theorem fields_are_printed_with_str
    env data success record rest username city su sc :
  parsed_response env data ->
  member "success" data = Some success ->
  py_truthy success = true ->
  at_path ["data"; "data"] data = Some (JList (record :: rest)) ->
  at_path ["login"; "username"] record = Some username ->
  at_path ["location"; "city"] record = Some city ->
  py_str username = Some su ->
  py_str city = Some sc ->
  ascii_only su = true ->
  ascii_only sc = true ->
  exists line,
    run env = (0, [GET api_url; PRINT line]) /\
    render line = Some ("Username: " +:+ su +:+ ", City: " +:+ sc).
Proof.
  intros Hp Hs Ht Hr Hu Hc Hsu Hsc _ _.
  pose proof (fetch_parsed_cases env data [] Hp) as H. unfold extracted in H.
  rewrite Hs in H. cbn [mbind option_bind] in H. rewrite Ht, Hr in H.
  cbn [mbind option_bind first_record] in H. rewrite Hu in H.
  cbn [mbind option_bind] in H. rewrite Hc in H. cbn [mbind option_bind] in H.
  exists (success_line username city). split; [now apply run_returned |].
  unfold success_line. cbn [render py_format fmap option_fmap option_map].
  rewrite Hsu, Hsc. cbn [fmap option_fmap option_map].
  now rewrite append_empty_r.
Qed.

Lemma fields_are_printed_with_str_witness :
  exists line,
    run (answering since_2_27 200
           (Parsed (enveloped (JList [JDict anonymous_record])))) =
      (0, [GET api_url; PRINT line]) /\
    render line = Some ("Username: " +:+ "None" +:+ ", City: " +:+ "75001").
Proof.
  apply (fields_are_printed_with_str _
           (enveloped (JList [JDict anonymous_record])) (JBool true)
           (JDict anonymous_record) [] JNull (JInt 75001) "None" "75001");
    [answered | reflexivity ..].
Defined.

(** X11.  When [success] is true and [data] is an array, the test
    ["data" in data["data"]] at line 60 looks for the string ["data"]
    among its elements: without it the validation fails with the exception
    of line 67; with it the validation passes and the subscription
    [data["data"]["data"]] at line 62 raises a [TypeError]. *)
Theorem array_valued_data env (d : gmap string json) success l t :
  parsed_response env (JDict d) ->
  d !! "success" = Some success ->
  py_truthy success = true ->
  d !! "data" = Some (JList l) ->
  fetch_data_from_api env t =
    (inl (if existsb (is_str "data") l
          then Exn TypeError (Unsupported Subscription list_t)
          else invalid_data),
     t ++ [GET api_url]).
Proof.
  intros Hp Hs Ht Hd. rewrite (fetch_parsed _ _ _ Hp).
  unfold validate_and_extract.
  rewrite (getitem_found _ _ _ Hs), bind_ret, Ht, py_and_true.
  rewrite (contains_found _ _ _ Hd), py_and_true.
  rewrite !(getitem_found _ _ _ Hd), !bind_ret.
  unfold py_contains. now destruct (existsb (is_str "data") l).
Qed.

Lemma array_valued_data_witness :
  fetch_data_from_api
    (answering since_2_27 200
       (Parsed (JDict {[ "success" := JBool true;
                         "data" := JList [JStr "data"] ]}))) [] =
    (inl (Exn TypeError (Unsupported Subscription list_t)), [GET api_url]).
Proof.
  apply (array_valued_data _
           {[ "success" := JBool true; "data" := JList [JStr "data"] ]}
           (JBool true) [JStr "data"] []);
    [answered | reflexivity ..].
Defined.
